(** * Markers of the text-cleaning accelerator

    Shallow embedding of
    [deep_learning/dl_manager/accelerator/src/text_cleaning/markers.rs]:
    the [Marker] enumeration, [Marker::all_markers] and
    [Marker::string_marker]. *)

From Stdlib Require Import String Ascii List Bool Arith Lia.
Import ListNotations.
Open Scope string_scope.

Module Markers.

(** [pub enum Marker { ... }], in declaration order. *)
Inductive Marker : Set :=
  | Attachment
  | ClassName
  | CloudInstanceSpec
  | Date
  | FilePath
  | FormattedLogging
  | FormattedTraceback
  | GithubLink
  | ImageAttachment
  | InlineCode
  | IssueLink
  | IPAddress
  | Log
  | MethodOrVariableName
  | NoFormatBlock
  | PackageName
  | SimpleClassName
  | SimpleMethodOrVariableName
  | StorageSize
  | StructuredCodeBlock
  | TechnologyName
  | Traceback
  | UnformattedLog
  | UnformattedTraceback
  | UserProfileLink
  | VersionNumber
  | WebLink.

(** [Marker::all_markers]: [vec![]]. *)
Definition all_markers : list Marker := [].

(** [Marker::string_marker]: the match of the source, arm by arm. *)
Definition string_marker (m : Marker) : string :=
  match m with
  | Attachment => "ATTACHMENT"
  | ClassName => "CLASSNAME"
  | CloudInstanceSpec => "CLOUDINSTANCE"
  | Date => "DATE"
  | FilePath => "FILEPATH"
  | FormattedLogging => "FORMATTEDLOGGINGOUTPUT"
  | FormattedTraceback => "FORMATTEDTRACEBACK"
  | GithubLink => "GITHUBLINK"
  | ImageAttachment => "IMAGEATTACHMENT"
  | InlineCode => "INLINECODESAMPLE"
  | IssueLink => "ISSUELINK"
  | IPAddress => "IP ADDRESS"
  | Log => "LLLOG"
  | MethodOrVariableName => "METHODORVARIABLENAME"
  | NoFormatBlock => "NOFORMATBLOCK"
  | PackageName => "PACKAGE"
  | SimpleClassName => "SIMPLECLASSNAME"
  | SimpleMethodOrVariableName => "SIMPLEMETHODORVARIABLENAME"
  | StorageSize => "STORAGESIZE"
  | StructuredCodeBlock => "STRUCTUREDCODEBLOCK"
  | TechnologyName => "TECHNOLOGYNAMES"
  | Traceback => "TTTRACEBACK"
  | UnformattedLog => "UNFORMATTEDLOGGINGOUTPUT"
  | UnformattedTraceback => "UNFORMATTEDTRACEBACK"
  | UserProfileLink => "USERPROFILELINK"
  | VersionNumber => "VERSIONNUMBER"
  | WebLink => "WEBLINK"
  end.

(** The match arms of [string_marker] as a table (pattern, literal), in
    source order, used to state exhaustiveness of the match. *)
Definition string_marker_arms : list (Marker * string) :=
  [ (Attachment, "ATTACHMENT"); (ClassName, "CLASSNAME");
    (CloudInstanceSpec, "CLOUDINSTANCE"); (Date, "DATE");
    (FilePath, "FILEPATH"); (FormattedLogging, "FORMATTEDLOGGINGOUTPUT");
    (FormattedTraceback, "FORMATTEDTRACEBACK"); (GithubLink, "GITHUBLINK");
    (ImageAttachment, "IMAGEATTACHMENT"); (InlineCode, "INLINECODESAMPLE");
    (IssueLink, "ISSUELINK"); (IPAddress, "IP ADDRESS"); (Log, "LLLOG");
    (MethodOrVariableName, "METHODORVARIABLENAME");
    (NoFormatBlock, "NOFORMATBLOCK"); (PackageName, "PACKAGE");
    (SimpleClassName, "SIMPLECLASSNAME");
    (SimpleMethodOrVariableName, "SIMPLEMETHODORVARIABLENAME");
    (StorageSize, "STORAGESIZE");
    (StructuredCodeBlock, "STRUCTUREDCODEBLOCK");
    (TechnologyName, "TECHNOLOGYNAMES"); (Traceback, "TTTRACEBACK");
    (UnformattedLog, "UNFORMATTEDLOGGINGOUTPUT");
    (UnformattedTraceback, "UNFORMATTEDTRACEBACK");
    (UserProfileLink, "USERPROFILELINK"); (VersionNumber, "VERSIONNUMBER");
    (WebLink, "WEBLINK") ].

(** The declared variants, in declaration order. *)
Definition declared_variants : list Marker := map fst string_marker_arms.

(** The identifier of each variant as written in the enum declaration. *)
Definition variant_name (m : Marker) : string :=
  match m with
  | Attachment => "Attachment"
  | ClassName => "ClassName"
  | CloudInstanceSpec => "CloudInstanceSpec"
  | Date => "Date"
  | FilePath => "FilePath"
  | FormattedLogging => "FormattedLogging"
  | FormattedTraceback => "FormattedTraceback"
  | GithubLink => "GithubLink"
  | ImageAttachment => "ImageAttachment"
  | InlineCode => "InlineCode"
  | IssueLink => "IssueLink"
  | IPAddress => "IPAddress"
  | Log => "Log"
  | MethodOrVariableName => "MethodOrVariableName"
  | NoFormatBlock => "NoFormatBlock"
  | PackageName => "PackageName"
  | SimpleClassName => "SimpleClassName"
  | SimpleMethodOrVariableName => "SimpleMethodOrVariableName"
  | StorageSize => "StorageSize"
  | StructuredCodeBlock => "StructuredCodeBlock"
  | TechnologyName => "TechnologyName"
  | Traceback => "Traceback"
  | UnformattedLog => "UnformattedLog"
  | UnformattedTraceback => "UnformattedTraceback"
  | UserProfileLink => "UserProfileLink"
  | VersionNumber => "VersionNumber"
  | WebLink => "WebLink"
  end.

Definition marker_eqb (a b : Marker) : bool :=
  match a, b with
  | Attachment, Attachment | ClassName, ClassName
  | CloudInstanceSpec, CloudInstanceSpec | Date, Date
  | FilePath, FilePath | FormattedLogging, FormattedLogging
  | FormattedTraceback, FormattedTraceback | GithubLink, GithubLink
  | ImageAttachment, ImageAttachment | InlineCode, InlineCode
  | IssueLink, IssueLink | IPAddress, IPAddress | Log, Log
  | MethodOrVariableName, MethodOrVariableName
  | NoFormatBlock, NoFormatBlock | PackageName, PackageName
  | SimpleClassName, SimpleClassName
  | SimpleMethodOrVariableName, SimpleMethodOrVariableName
  | StorageSize, StorageSize | StructuredCodeBlock, StructuredCodeBlock
  | TechnologyName, TechnologyName | Traceback, Traceback
  | UnformattedLog, UnformattedLog
  | UnformattedTraceback, UnformattedTraceback
  | UserProfileLink, UserProfileLink | VersionNumber, VersionNumber
  | WebLink, WebLink => true
  | _, _ => false
  end.

(** Number of arms of the match whose pattern is [m]. *)
Definition arm_count (m : Marker) : nat :=
  length (filter (fun a => marker_eqb (fst a) m) string_marker_arms).

(** Character classes of the labels. *)
Definition is_upper (c : ascii) : bool :=
  ((65 <=? nat_of_ascii c) && (nat_of_ascii c <=? 90))%nat.

Definition is_space (c : ascii) : bool := Ascii.eqb c " "%char.

Definition upper_char (c : ascii) : ascii :=
  if ((97 <=? nat_of_ascii c) && (nat_of_ascii c <=? 122))%nat
  then ascii_of_nat (nat_of_ascii c - 32)%nat else c.

Definition to_upper (s : string) : string :=
  string_of_list_ascii (map upper_char (list_ascii_of_string s)).

Definition count_spaces (s : string) : nat :=
  length (filter is_space (list_ascii_of_string s)).


(** Prefix and infix tests on strings, used to relate labels to each
    other as substitution tokens. *)
Fixpoint string_prefixb (p s : string) : bool :=
  match p, s with
  | EmptyString, _ => true
  | String a p', String b s' => Ascii.eqb a b && string_prefixb p' s'
  | String _ _, EmptyString => false
  end.

Fixpoint string_infixb (p s : string) : bool :=
  string_prefixb p s ||
  match s with
  | EmptyString => false
  | String _ s' => string_infixb p s'
  end.

(** Pairs [(v, w)] of distinct variants whose label of [v] occurs inside
    the label of [w]. *)
Definition label_infix_pairs : list (Marker * Marker) :=
  [ (Attachment, ImageAttachment); (ClassName, SimpleClassName);
    (FormattedLogging, UnformattedLog);
    (FormattedTraceback, UnformattedTraceback);
    (MethodOrVariableName, SimpleMethodOrVariableName) ].

(** ** Lemmas *)

Lemma marker_eqb_spec (a b : Marker) : marker_eqb a b = true <-> a = b.
Proof. destruct a, b; simpl; split; congruence. Qed.

Lemma declared_variants_complete (m : Marker) : In m declared_variants.
Proof. destruct m; simpl; tauto. Qed.

Lemma declared_variants_NoDup : NoDup declared_variants.
Proof.
  unfold declared_variants; simpl.
  repeat (constructor; [simpl; intuition discriminate |]).
  constructor.
Qed.

Lemma declared_variants_length : length declared_variants = 27.
Proof. reflexivity. Qed.

(** Any duplicate-free list that contains every variant has length 27. *)
Lemma complete_NoDup_length (l : list Marker) :
  NoDup l -> (forall m, In m l) -> length l = 27.
Proof.
  intros Hnd Hall.
  assert (H1 : length l <= length declared_variants)
    by (apply NoDup_incl_length; [exact Hnd | intros m _; apply declared_variants_complete]).
  assert (H2 : length declared_variants <= length l)
    by (apply NoDup_incl_length; [exact declared_variants_NoDup | intros m _; apply Hall]).
  rewrite declared_variants_length in *; lia.
Qed.

Lemma string_prefixb_spec (p s : string) :
  string_prefixb p s = true <-> exists r, s = (p ++ r)%string.
Proof.
  revert s; induction p as [| a p IH]; intros s; simpl.
  - split; [intros _; exists s; reflexivity | reflexivity].
  - destruct s as [| b s]; simpl.
    + split; [discriminate | intros [r Hr]; discriminate Hr].
    + rewrite Bool.andb_true_iff, IH. split.
      * intros [Hab [r Hr]]. apply Ascii.eqb_eq in Hab. subst. exists r; reflexivity.
      * intros [r Hr]. injection Hr as -> ->. split; [apply Ascii.eqb_refl | exists r; reflexivity].
Qed.

Lemma string_infixb_spec (p s : string) :
  string_infixb p s = true <->
  exists pre post, s = (pre ++ p ++ post)%string.
Proof.
  induction s as [| c s IH]; simpl.
  - rewrite Bool.orb_false_r, string_prefixb_spec. split.
    + intros [r Hr]; exists EmptyString, r; exact Hr.
    + intros [pre [post H]]; destruct pre; [exists post; exact H | discriminate H].
  - rewrite Bool.orb_true_iff, string_prefixb_spec, IH. split.
    + intros [[r Hr] | [pre [post H]]].
      * exists EmptyString, r; exact Hr.
      * exists (String c pre), post; simpl; rewrite H; reflexivity.
    + intros [pre [post H]]. destruct pre as [| c' pre]; simpl in H.
      * left; exists post; exact H.
      * injection H as -> H; right; exists pre, post; exact H.
Qed.

Ltac by_cases_on m := destruct m; vm_compute; reflexivity.

(** ** Claims *)

(** C1: [all_markers] returns an empty sequence: its length is zero and it
    contains no variant. *)
Theorem all_markers_empty :
  length all_markers = 0 /\ forall m : Marker, ~ In m all_markers.
Proof. split; [reflexivity | intros m H; exact H]. Qed.

(** C2 (counterexample): there is no list of exactly 26 pairwise distinct
    variants covering the whole enumeration; the enum does not have 26
    variants. *)
Lemma marker_not_26_variants :
  ~ exists l : list Marker,
      length l = 26 /\ NoDup l /\ forall m, In m l.
Proof.
  intros [l [Hlen [Hnd Hall]]].
  pose proof (complete_NoDup_length l Hnd Hall). lia.
Qed.

(** C2 (amended): [Marker] is a closed enumeration of exactly 27 nullary
    variants: [declared_variants] lists each of them once and every value
    of [Marker] is one of them; and any duplicate-free complete listing of
    the variants has length 27. *)
Theorem marker_has_27_variants :
  length declared_variants = 27 /\ NoDup declared_variants /\
  (forall m : Marker, In m declared_variants) /\
  (forall l : list Marker, NoDup l -> (forall m, In m l) -> length l = 27).
Proof.
  split; [exact declared_variants_length |].
  split; [exact declared_variants_NoDup |].
  split; [exact declared_variants_complete | exact complete_NoDup_length].
Qed.

(** C3: every label returned by [string_marker] is non-empty. *)
Theorem string_marker_nonempty (m : Marker) : string_marker m <> EmptyString.
Proof. destruct m; discriminate. Qed.

(** C4: the literal labels of [FilePath], [WebLink], [IPAddress], [Log]
    and [Traceback]. *)
Theorem string_marker_examples :
  string_marker FilePath = "FILEPATH" /\
  string_marker WebLink = "WEBLINK" /\
  string_marker IPAddress = "IP ADDRESS" /\
  string_marker Log = "LLLOG" /\
  string_marker Traceback = "TTTRACEBACK".
Proof. repeat split. Qed.

(** C5: the match of [string_marker] is exhaustive with no default arm:
    every variant is the pattern of exactly one arm, that arm's literal is
    what [string_marker] returns, and that literal is non-empty. *)
Theorem string_marker_exhaustive (m : Marker) :
  arm_count m = 1 /\
  In (m, string_marker m) string_marker_arms /\
  string_marker m <> EmptyString.
Proof.
  split; [by_cases_on m |].
  split; [destruct m; simpl; tauto | apply string_marker_nonempty].
Qed.

(** C6: [string_marker] is deterministic: equal variants give identical
    labels. *)
Theorem string_marker_deterministic (v w : Marker) :
  v = w -> string_marker v = string_marker w.
Proof. intros ->; reflexivity. Qed.

(** C7: [string_marker] is injective: distinct variants have distinct
    labels. *)
Theorem string_marker_injective (v w : Marker) :
  v <> w -> string_marker v <> string_marker w.
Proof.
  intros Hne Heq; apply Hne.
  destruct v, w; solve [reflexivity | discriminate Heq].
Qed.

(** C8: some labels are not the upper-cased variant identifier; the six
    listed labels, and for each of them the difference. *)
Theorem string_marker_not_uppercased_name :
  string_marker PackageName = "PACKAGE" /\
  string_marker TechnologyName = "TECHNOLOGYNAMES" /\
  string_marker CloudInstanceSpec = "CLOUDINSTANCE" /\
  string_marker InlineCode = "INLINECODESAMPLE" /\
  string_marker FormattedLogging = "FORMATTEDLOGGINGOUTPUT" /\
  string_marker UnformattedLog = "UNFORMATTEDLOGGINGOUTPUT" /\
  Forall (fun m => string_marker m <> to_upper (variant_name m))
    [PackageName; TechnologyName; CloudInstanceSpec; InlineCode;
     FormattedLogging; UnformattedLog].
Proof.
  repeat split.
  repeat constructor; vm_compute; discriminate.
Qed.

(** C9: every label consists of upper-case ASCII letters only, except the
    label of [IPAddress], whose characters are upper-case letters and
    exactly one space. *)
Theorem string_marker_charset (m : Marker) :
  (m <> IPAddress ->
     forallb is_upper (list_ascii_of_string (string_marker m)) = true) /\
  (m = IPAddress ->
     forallb (fun c => is_upper c || is_space c)
       (list_ascii_of_string (string_marker m)) = true /\
     count_spaces (string_marker m) = 1).
Proof.
  destruct m; split; intro H; try congruence; vm_compute; auto.
Qed.

(** ** Further properties of the labels *)

(** No label is a prefix of the label of another variant. *)
Theorem string_marker_prefix_free (v w : Marker) :
  v <> w -> ~ exists r, string_marker w = (string_marker v ++ r)%string.
Proof.
  intros Hne Hp. apply string_prefixb_spec in Hp. revert Hp.
  destruct v, w; try (exfalso; apply Hne; reflexivity); vm_compute; discriminate.
Qed.

(** The label of a variant [v] occurs inside the label of another variant
    [w] exactly for the five pairs of [label_infix_pairs]. *)
Theorem string_marker_infix_pairs (v w : Marker) :
  v <> w ->
  ((exists pre post,
      string_marker w = (pre ++ string_marker v ++ post)%string) <->
   In (v, w) label_infix_pairs).
Proof.
  intros Hne. rewrite <- string_infixb_spec.
  destruct v, w; try (exfalso; apply Hne; reflexivity); vm_compute;
    intuition (discriminate || congruence).
Qed.

(** Label lengths: every label has between 4 and 26 characters; the
    bounds are reached by [Date] and [SimpleMethodOrVariableName]. *)
Theorem string_marker_length_bounds :
  (forall m : Marker,
     4 <= String.length (string_marker m) <= 26)%nat /\
  String.length (string_marker Date) = 4%nat /\
  String.length (string_marker SimpleMethodOrVariableName) = 26%nat.
Proof.
  split; [| split; reflexivity].
  intros m; destruct m; simpl; lia.
Qed.

(** ** Witnesses *)

(** The 27-variant listing of C2 applied to [declared_variants] itself. *)
Lemma marker_has_27_variants_witness :
  NoDup declared_variants /\ length declared_variants = 27.
Proof.
  split; [exact declared_variants_NoDup |].
  destruct marker_has_27_variants as [_ [_ [_ H]]].
  apply H; [exact declared_variants_NoDup | exact declared_variants_complete].
Defined.

(** C6 at [IPAddress]. *)
Lemma string_marker_deterministic_witness :
  IPAddress = IPAddress /\ string_marker IPAddress = "IP ADDRESS".
Proof.
  split; [reflexivity |].
  etransitivity;
    [exact (string_marker_deterministic IPAddress IPAddress eq_refl)
    | reflexivity].
Defined.

(** C7 at [Log] and [Traceback]. *)
Lemma string_marker_injective_witness :
  Log <> Traceback /\ string_marker Log <> string_marker Traceback.
Proof.
  assert (Hne : Log <> Traceback) by discriminate.
  split; [exact Hne | exact (string_marker_injective Log Traceback Hne)].
Defined.

(** C9 at [IPAddress] and at [WebLink]. *)
Lemma string_marker_charset_witness :
  count_spaces (string_marker IPAddress) = 1 /\
  forallb is_upper (list_ascii_of_string (string_marker WebLink)) = true.
Proof.
  split.
  - apply (proj2 (string_marker_charset IPAddress) eq_refl).
  - apply (proj1 (string_marker_charset WebLink)); discriminate.
Defined.

(** Prefix-freeness at [ClassName] and [SimpleClassName]. *)
Lemma string_marker_prefix_free_witness :
  ClassName <> SimpleClassName /\
  ~ exists r, string_marker SimpleClassName =
              (string_marker ClassName ++ r)%string.
Proof.
  assert (Hne : ClassName <> SimpleClassName) by discriminate.
  split; [exact Hne | exact (string_marker_prefix_free _ _ Hne)].
Defined.

(** The infix characterisation at [ClassName] inside [SimpleClassName]. *)
Lemma string_marker_infix_pairs_witness :
  ClassName <> SimpleClassName /\
  exists pre post, string_marker SimpleClassName =
                   (pre ++ string_marker ClassName ++ post)%string.
Proof.
  assert (Hne : ClassName <> SimpleClassName) by discriminate.
  split; [exact Hne |].
  apply (proj2 (string_marker_infix_pairs _ _ Hne)).
  simpl; tauto.
Defined.

End Markers.
